(** * tdom.conditional: first-match conditionals for templates

    A shallow embedding of [src/tdom/conditional.py]: the helper
    [_resolve_value], the trusted-text conversion [_to_markup], the builder
    class [Conditions] and the function [cond], followed by the properties
    the specification states about them.

    Python objects are a small universe of values.  Code supplied by the
    caller (zero-argument callables, [__html__] hooks, the [__bool__] and
    [__str__] of its objects) lives in a [Runtime]: it may change the world,
    return a value or raise.  Every function of the module that can run such
    code is written in the monad [M], which threads the world and keeps a log
    of the invocations [val()] the module performs.  [str] is partial as in
    Python: it raises on an int with more digits than the interpreter
    converts.  [Conditions] and [cond] take [bool] conditions, as their
    signatures annotate; [Dynamic] is the same code with any object as a
    condition. *)

From Stdlib Require Import List String Ascii ZArith Bool Arith Lia DecimalString.
Import ListNotations.
Open Scope string_scope.

(** ** Values *)

(** [markupsafe.Markup]: a string marked as already safe for HTML. *)
Record Markup : Type := mkMarkup { markup_text : string }.

(** The Python objects the module can meet.  [PObject], [PFunc] and [PHtml]
    are objects with an identity (their address); what a [PFunc] does when it
    is called and what the [__html__] method of a [PHtml] returns is given by
    the [Runtime].  A [PObject] is the bare [object()] of the module at
    address 0 and an instance of a class of the caller elsewhere, with a
    [__bool__] and a [__str__] of its own that the [Runtime] gives; a [PFunc]
    and a [PHtml] define neither. *)
Inductive pyobj : Type :=
| PNone
| PBool (b : bool)
| PInt (n : Z)
| PStr (s : string)
| PMarkup (m : Markup)
| PObject (addr : nat)   (* not callable, no __html__ *)
| PFunc (addr : nat)     (* a function, lambda or other callable *)
| PHtml (addr : nat).    (* a non-callable object with an __html__ method *)

(** Python exceptions, by class name and message. *)
Inductive exn : Type := PyExc (cls msg : string).

Inductive outcome (A : Type) : Type :=
| Returns (a : A)
| Raises (e : exn).
Arguments Returns {A} a.
Arguments Raises {A} e.

(** ** The caller's code *)

Class Runtime : Type := {
  World : Type;
  (** [call_fn f w]: what calling the callable at address [f] with no
      argument does in world [w]. *)
  call_fn : nat -> World -> outcome pyobj * World;
  (** [html_fn o w]: what [o.__html__()] does for the object at address [o]. *)
  html_fn : nat -> World -> outcome string * World;
  (** [str(o)] of an object that does not define its own: text that depends
      on the address only. *)
  obj_str : pyobj -> string;
  (** [bool_fn o w]: what the truth test of the caller's object at address
      [o] does, its [__bool__]. *)
  bool_fn : nat -> World -> outcome bool * World;
  (** [str_fn o w]: what [str(o)] does for the caller's object at address
      [o], its [__str__]. *)
  str_fn : nat -> World -> outcome string * World;
  (** [sys.get_int_max_str_digits()]: the most digits [str] converts an int
      to, 4300 unless configured; 0 for no limit. *)
  int_max_str_digits : Z
}.

(** ** The effect monad *)

Section Model.
Context {R : Runtime}.

(** The world, and the addresses of the callables the module has invoked so
    far, oldest first. *)
Record State : Type := mkState { world : World; calls : list nat }.

Definition M (A : Type) : Type := State -> outcome A * State.

Definition ret {A : Type} (a : A) : M A := fun st => (Returns a, st).

Definition raise {A : Type} (e : exn) : M A := fun st => (Raises e, st).

(** An exception raised by [m] skips [k]; the state reached so far stays. *)
Definition bind {A B : Type} (m : M A) (k : A -> M B) : M B :=
  fun st =>
    match m st with
    | (Returns a, st') => k a st'
    | (Raises e, st') => (Raises e, st')
    end.

(** The call [f()] of the callable at address [f], logged. *)
Definition invoke (f : nat) : M pyobj :=
  fun st =>
    (fst (call_fn f (world st)),
     mkState (snd (call_fn f (world st))) (calls st ++ [f])).

(** The [__html__] method of the object at address [o]. *)
Definition hook (o : nat) : M string :=
  fun st =>
    (fst (html_fn o (world st)),
     mkState (snd (html_fn o (world st))) (calls st)).

(** The [__bool__] method of the caller's object at address [o]. *)
Definition truth_hook (o : nat) : M bool :=
  fun st =>
    (fst (bool_fn o (world st)),
     mkState (snd (bool_fn o (world st))) (calls st)).

(** The [__str__] method of the caller's object at address [o]. *)
Definition str_hook (o : nat) : M string :=
  fun st =>
    (fst (str_fn o (world st)),
     mkState (snd (str_fn o (world st))) (calls st)).

End Model.

Declare Scope py_scope.
Delimit Scope py_scope with py.
Notation "x <- m ;; k" := (bind m (fun x => k))
  (at level 61, m at next level, right associativity) : py_scope.
Open Scope py_scope.

(** ** Built-ins *)

(** [callable(val)]. *)
Definition callable (val : pyobj) : bool :=
  match val with
  | PFunc _ => true
  | _ => false
  end.

Definition TypeError_not_callable : exn :=
  PyExc "TypeError" "object is not callable".

Definition AttributeError_html : exn :=
  PyExc "AttributeError" "object has no attribute __html__".

Definition ValueError_int_digits : exn :=
  PyExc "ValueError" "Exceeds the limit for integer string conversion".

Definition dquote : ascii := ascii_of_nat 34.

Section Builtins.
Context {R : Runtime}.

(** The call expression [val()]. *)
Definition py_call (val : pyobj) : M pyobj :=
  match val with
  | PFunc f => invoke f
  | _ => raise TypeError_not_callable
  end.

(** The method call [o.__html__()].  [Markup.__html__] returns the string
    itself. *)
Definition py_html (o : pyobj) : M string :=
  match o with
  | PMarkup m => ret (markup_text m)
  | PHtml a => hook a
  | _ => raise AttributeError_html
  end.

(** Whether the decimal text of [n] has more digits than the interpreter
    converts: [str(n)] raises [ValueError] then. *)
Definition int_str_too_long (n : Z) : bool :=
  (0 <? int_max_str_digits)%Z && (10 ^ int_max_str_digits <=? Z.abs n)%Z.

(** [str(o)]. *)
Definition py_str (o : pyobj) : M string :=
  match o with
  | PNone => ret "None"
  | PBool true => ret "True"
  | PBool false => ret "False"
  | PInt n =>
      if int_str_too_long n
      then raise ValueError_int_digits
      else ret (NilZero.string_of_int (Z.to_int n))
  | PStr s => ret s
  | PMarkup m => ret (markup_text m)
  | PObject a => if Nat.eqb a 0 then ret (obj_str o) else str_hook a
  | PFunc _ | PHtml _ => ret (obj_str o)
  end.

(** The truth test that [if] applies to [o]. *)
Definition py_truth (o : pyobj) : M bool :=
  match o with
  | PNone => ret false
  | PBool b => ret b
  | PInt n => ret (negb (Z.eqb n 0))
  | PStr s => ret (negb (String.eqb s EmptyString))
  | PMarkup m => ret (negb (String.eqb (markup_text m) EmptyString))
  | PObject a => if Nat.eqb a 0 then ret true else truth_hook a
  | PFunc _ | PHtml _ => ret true
  end.

End Builtins.

(** Modelled from the spec: [HasHTMLDunder] is declared in [tdom/processor.py],
    which is not among the sources.  It is the protocol of the objects that
    expose the rendering hook, a zero-argument method [__html__]; the match
    pattern [HasHTMLDunder()] tests that the object has one. *)
Definition HasHTMLDunder (o : pyobj) : bool :=
  match o with
  | PMarkup _ | PHtml _ => true
  | _ => false
  end.

(** Modelled from the spec: [escape] belongs to markupsafe, which is not among
    the sources.  It replaces the HTML metacharacters [&], [<], [>] and both
    quotes of a plain string by entities and marks the result as trusted. *)
Definition escape_char (c : ascii) : string :=
  if Ascii.eqb c "&" then "&amp;"
  else if Ascii.eqb c "<" then "&lt;"
  else if Ascii.eqb c ">" then "&gt;"
  else if Ascii.eqb c "'" then "&#39;"
  else if Ascii.eqb c dquote then "&#34;"
  else String c EmptyString.

Fixpoint escape_text (s : string) : string :=
  match s with
  | EmptyString => EmptyString
  | String c rest => escape_char c ++ escape_text rest
  end.

Definition escape (s : string) : Markup := mkMarkup (escape_text s).

(** ** The module *)

(** [_UNSET: object = object()]: the sentinel that tells "no default
    provided" from an explicit [None] or falsy default.  Address 0 is the
    object the module creates when it is loaded. *)
Definition _UNSET : pyobj := PObject 0.

(** [x is _UNSET]: identity with the sentinel. *)
Definition is_UNSET (x : pyobj) : bool :=
  match x with
  | PObject a => Nat.eqb a 0
  | _ => false
  end.

Section Functions.
Context {R : Runtime}.

(** [return val() if callable(val) else val] *)
Definition _resolve_value (val : pyobj) : M pyobj :=
  if callable val then py_call val else ret val.

(** The [match] of [_to_markup], case by case in the order of the source. *)
Definition _to_markup (result : pyobj) : M Markup :=
  match result with
  | PNone => ret (mkMarkup EmptyString)
  | _ =>
      if HasHTMLDunder result
      then (s <- py_html result ;; ret (mkMarkup s))
      else (s <- py_str result ;; ret (escape s))
  end.

End Functions.

(** The class [Conditions].  An instance is its two slots ([__slots__]),
    typed as [__init__] annotates them: [_cases] a list of pairs of a [bool]
    and a value, [_default] a value.  A method that mutates [self] and
    returns it yields the instance after the mutation. *)
Module Conditions.

Record t : Type := mk { _cases : list (bool * pyobj); _default : pyobj }.

Definition __init__ : t := mk [] _UNSET.

Definition when (self : t) (condition : bool) (value : pyobj) : t :=
  mk (_cases self ++ [(condition, value)]) (_default self).

Definition default (self : t) (value : pyobj) : t :=
  mk (_cases self) value.

Section Resolution.
Context {R : Runtime}.

(** The [for] loop of [_resolve]: [Some r] when the loop returned [r],
    [None] when it ran to its end. *)
Fixpoint _resolve_loop (cases : list (bool * pyobj)) : M (option pyobj) :=
  match cases with
  | [] => ret None
  | (cond, val) :: rest =>
      if cond
      then (r <- _resolve_value val ;; ret (Some r))
      else _resolve_loop rest
  end.

Definition _resolve (self : t) : M pyobj :=
  early <- _resolve_loop (_cases self) ;;
  match early with
  | Some r => ret r
  | None =>
      if negb (is_UNSET (_default self))
      then _resolve_value (_default self)
      else ret PNone
  end.

Definition __html__ (self : t) : M Markup :=
  r <- _resolve self ;; _to_markup r.

End Resolution.
End Conditions.

Section Cond.
Context {R : Runtime}.

(** The [for] loop of [cond], with the same reading of its result. *)
Fixpoint cond_loop (pairs : list (bool * pyobj)) : M (option pyobj) :=
  match pairs with
  | [] => ret None
  | (condition, value) :: rest =>
      if condition
      then (r <- _resolve_value value ;; ret (Some r))
      else cond_loop rest
  end.

(** The function [cond]: its variadic [pairs] as a list, and its keyword
    argument [default] already bound. *)
Definition cond (pairs : list (bool * pyobj)) (default : pyobj) : M pyobj :=
  early <- cond_loop pairs ;;
  match early with
  | Some r => ret r
  | None =>
      if negb (is_UNSET default)
      then _resolve_value default
      else ret PNone
  end.

End Cond.

(** How a call binds the keyword argument [default]: to the value given, or
    to [_UNSET] when the call leaves it out. *)
Definition kwarg_default (given : option pyobj) : pyobj :=
  match given with
  | Some d => d
  | None => _UNSET
  end.

(** ** Conditions that are not [bool]

    The signatures annotate a condition as [bool], and [Conditions] and
    [cond] above take one.  Nothing checks the annotation: a caller can hand
    any object over, [when] stores it as it is, and the [if] of the two
    loops applies the truth test to it when the scan reaches it.  [Dynamic]
    is the same code with its conditions as objects. *)
Module Dynamic.

Record t : Type := mk { _cases : list (pyobj * pyobj); _default : pyobj }.

Definition __init__ : t := mk [] _UNSET.

Definition when (self : t) (condition value : pyobj) : t :=
  mk (_cases self ++ [(condition, value)]) (_default self).

Definition default (self : t) (value : pyobj) : t :=
  mk (_cases self) value.

Section Resolution.
Context {R : Runtime}.

Fixpoint _resolve_loop (cases : list (pyobj * pyobj)) : M (option pyobj) :=
  match cases with
  | [] => ret None
  | (cond, val) :: rest =>
      truthy <- py_truth cond ;;
      if truthy
      then (r <- _resolve_value val ;; ret (Some r))
      else _resolve_loop rest
  end.

Definition _resolve (self : t) : M pyobj :=
  early <- _resolve_loop (_cases self) ;;
  match early with
  | Some r => ret r
  | None =>
      if negb (is_UNSET (_default self))
      then _resolve_value (_default self)
      else ret PNone
  end.

Definition __html__ (self : t) : M Markup :=
  r <- _resolve self ;; _to_markup r.

Fixpoint cond_loop (pairs : list (pyobj * pyobj)) : M (option pyobj) :=
  match pairs with
  | [] => ret None
  | (condition, value) :: rest =>
      truthy <- py_truth condition ;;
      if truthy
      then (r <- _resolve_value value ;; ret (Some r))
      else cond_loop rest
  end.

Definition cond (pairs : list (pyobj * pyobj)) (default : pyobj) : M pyobj :=
  early <- cond_loop pairs ;;
  match early with
  | Some r => ret r
  | None =>
      if negb (is_UNSET default)
      then _resolve_value default
      else ret PNone
  end.

End Resolution.


End Dynamic.

(** ** Vocabulary of the properties *)

(** The branches appended by [when], one call per pair, in order. *)
Definition whens (pairs : list (bool * pyobj)) (self : Conditions.t) : Conditions.t :=
  fold_left (fun c p => Conditions.when c (fst p) (snd p)) pairs self.

(** The two builder calls, and a chain of them applied to an instance. *)
Inductive builder_call : Type :=
| When (condition : bool) (value : pyobj)
| Default (value : pyobj).

Definition apply_call (self : Conditions.t) (c : builder_call) : Conditions.t :=
  match c with
  | When condition value => Conditions.when self condition value
  | Default value => Conditions.default self value
  end.

Definition chain (calls : list builder_call) (self : Conditions.t) : Conditions.t :=
  fold_left apply_call calls self.

Definition is_when (c : builder_call) : Prop :=
  match c with
  | When _ _ => True
  | Default _ => False
  end.

(** A builder call that does not hand the module its own sentinel. *)
Definition legal_call (c : builder_call) : Prop :=
  match c with
  | When _ value => value <> _UNSET
  | Default value => value <> _UNSET
  end.

(** No condition of [cases] is truthy. *)
Definition no_match (cases : list (bool * pyobj)) : Prop :=
  Forall (fun b => fst b = false) cases.

(** What a resolution over [cases] and the slot [dflt] selects: the value of
    the first branch with a truthy condition, else the default when one is
    set, else nothing. *)
Inductive selects (cases : list (bool * pyobj)) (dflt : pyobj) : option pyobj -> Prop :=
| sel_branch pre v post :
    cases = (pre ++ (true, v) :: post)%list -> no_match pre ->
    selects cases dflt (Some v)
| sel_default :
    no_match cases -> dflt <> _UNSET ->
    selects cases dflt (Some dflt)
| sel_nothing :
    no_match cases -> dflt = _UNSET ->
    selects cases dflt None.

(** [sel] is the callable at address [g]. *)
Definition is_thunk (sel : option pyobj) (g : nat) : bool :=
  match sel with
  | Some (PFunc f) => Nat.eqb f g
  | _ => false
  end.

(** How many times running [m] from [st] invokes the callable at [g]. *)
Definition invocations {R : Runtime} {A : Type} (m : M A) (st : State) (g : nat) : nat :=
  count_occ Nat.eq_dec (calls (snd (m st))) g - count_occ Nat.eq_dec (calls st) g.

(** The reading of "the hook returns the resolved value itself": whenever the
    resolution yields [v] and the hook yields [m], the text of [m] is the
    text of [v], nothing having been escaped in between. *)
Definition html_returns_value_itself {R : Runtime} (self : Conditions.t) (st : State) : Prop :=
  forall v m,
    fst (Conditions._resolve self st) = Returns v ->
    fst (Conditions.__html__ self st) = Returns m ->
    fst (py_str v (snd (Conditions._resolve self st))) = Returns (markup_text m).



(** The characters that must not reach trusted text unescaped. *)
Definition raw_meta (c : ascii) : Prop :=
  c = "<"%char \/ c = ">"%char \/ c = "'"%char \/ c = dquote.

(** ** A concrete runtime

    The world counts the calls made into the caller's code.  Callable 0
    returns a string, callable 1 raises, every other callable returns [None];
    every hook returns a rendered element. *)
Definition demo_call (f : nat) (w : nat) : outcome pyobj * nat :=
  match f with
  | 0 => (Returns (PStr "lazy"), S w)
  | 1 => (Raises (PyExc "ValueError" "boom"), S w)
  | _ => (Returns PNone, S w)
  end.

Definition demo_html (o : nat) (w : nat) : outcome string * nat :=
  (Returns "<span>hi</span>", S w).

Definition demo_str (o : pyobj) : string := "<object object at 0x0>".

(** The truth test of object 1 raises, as that of an array does; every other
    object of the caller is truthy. *)
Definition demo_bool (o : nat) (w : nat) : outcome bool * nat :=
  match o with
  | 1 => (Raises (PyExc "ValueError" "truth value is ambiguous"), S w)
  | _ => (Returns true, S w)
  end.

(** [str] of object 1 raises; [str] of every other object of the caller is
    plain text. *)
Definition demo_objstr (o : nat) (w : nat) : outcome string * nat :=
  match o with
  | 1 => (Raises (PyExc "RuntimeError" "no text"), S w)
  | _ => (Returns "<Row>", S w)
  end.

Definition demo : Runtime :=
  {| World := nat; call_fn := demo_call; html_fn := demo_html; obj_str := demo_str;
     bool_fn := demo_bool; str_fn := demo_objstr; int_max_str_digits := 4300 |}.

Definition demo_state : @State demo := @mkState demo 0 [].

(** ** Vocabulary for chains of builder calls *)

Definition is_when_b (c : builder_call) : bool :=
  match c with
  | When _ _ => true
  | Default _ => false
  end.

Definition is_default_b (c : builder_call) : bool := negb (is_when_b c).

(** The branches a chain appends, in the order of its [when] calls. *)
Definition branches_of (l : list builder_call) : list (bool * pyobj) :=
  flat_map (fun c => match c with
                     | When condition value => [(condition, value)]
                     | Default _ => []
                     end) l.

(** The slot [_default] after a chain that started with [init] in it. *)
Definition last_default (l : list builder_call) (init : pyobj) : pyobj :=
  fold_left (fun d c => match c with
                        | When _ _ => d
                        | Default value => value
                        end) l init.

(** Some condition of [cases] is truthy. *)
Definition has_match (cases : list (bool * pyobj)) : bool :=
  existsb (fun b => fst b) cases.

(** [cases] without its branches of falsy condition. *)
Definition truthy_only (cases : list (bool * pyobj)) : list (bool * pyobj) :=
  filter (fun b => fst b) cases.

(** ** A runtime whose callables return objects

    Callable 0 returns the callable 1, every other callable returns the
    renderable object 2, and every hook returns a rendered element; each
    call moves the world by one. *)
Definition lazy_call (f : nat) (w : nat) : outcome pyobj * nat :=
  match f with
  | 0 => (Returns (PFunc 1), S w)
  | _ => (Returns (PHtml 2), S w)
  end.

Definition lazy_html (o : nat) (w : nat) : outcome string * nat :=
  (Returns "<span>ADMIN</span>", S w).

Definition lazy_str (o : pyobj) : string := "<function <lambda> at 0x1>".

Definition lazy_rt : Runtime :=
  {| World := nat; call_fn := lazy_call; html_fn := lazy_html; obj_str := lazy_str;
     bool_fn := demo_bool; str_fn := demo_objstr; int_max_str_digits := 4300 |}.

Definition lazy_state : @State lazy_rt := @mkState lazy_rt 0 [].

(** ** Properties *)

Section Properties.
Context {R : Runtime}.

Lemma is_UNSET_true (x : pyobj) : is_UNSET x = true <-> x = _UNSET.
Proof.
  unfold _UNSET. destruct x; simpl; split; intro H; try discriminate.
  - apply Nat.eqb_eq in H. now subst.
  - injection H as ->. reflexivity.
Qed.

Lemma is_UNSET_false (x : pyobj) : is_UNSET x = false <-> x <> _UNSET.
Proof.
  rewrite <- is_UNSET_true. destruct (is_UNSET x); split; intro H;
    try reflexivity; try discriminate; try congruence.
Qed.

(** [_resolve_value] spelled out on the shape of its argument. *)
Lemma resolve_value_cases (v : pyobj) (st : State) :
  _resolve_value v st =
  match v with
  | PFunc f => invoke f st
  | _ => (Returns v, st)
  end.
Proof. destruct v; reflexivity. Qed.

Lemma resolve_loop_no_match (cases : list (bool * pyobj)) (st : State) :
  no_match cases -> Conditions._resolve_loop cases st = (Returns None, st).
Proof.
  induction 1 as [| [c v] rest Hc _ IH]; simpl in *.
  - reflexivity.
  - rewrite Hc. exact IH.
Qed.

Lemma resolve_loop_first (pre post : list (bool * pyobj)) (v : pyobj) (st : State) :
  no_match pre ->
  Conditions._resolve_loop (pre ++ (true, v) :: post) st =
  (r <- _resolve_value v ;; ret (Some r)) st.
Proof.
  induction 1 as [| [c w] rest Hc _ IH]; simpl in *.
  - reflexivity.
  - rewrite Hc. exact IH.
Qed.

(** The two loops of the source are the same loop. *)
Lemma cond_loop_same (pairs : list (bool * pyobj)) (st : State) :
  cond_loop pairs st = Conditions._resolve_loop pairs st.
Proof.
  revert st. induction pairs as [| [c v] rest IH]; intro st; simpl.
  - reflexivity.
  - destruct c; [reflexivity | apply IH].
Qed.

Lemma cond_same (cases : list (bool * pyobj)) (d : pyobj) (st : State) :
  cond cases d st = Conditions._resolve (Conditions.mk cases d) st.
Proof.
  unfold cond, Conditions._resolve, bind; simpl.
  rewrite cond_loop_same. reflexivity.
Qed.

(** A resolution is the resolution of what it selects. *)
Lemma resolve_selects (cases : list (bool * pyobj)) (d : pyobj)
      (sel : option pyobj) (st : State) :
  selects cases d sel ->
  Conditions._resolve (Conditions.mk cases d) st =
  match sel with
  | Some v => _resolve_value v st
  | None => (Returns PNone, st)
  end.
Proof.
  intros [pre v post -> Hpre | Hno Hd | Hno Hd];
    unfold Conditions._resolve, bind; simpl.
  - rewrite resolve_loop_first by assumption. unfold bind, ret.
    destruct (_resolve_value v st) as [[a | e] st']; reflexivity.
  - rewrite resolve_loop_no_match by assumption.
    apply is_UNSET_false in Hd. rewrite Hd. reflexivity.
  - rewrite resolve_loop_no_match by assumption.
    apply is_UNSET_true in Hd. rewrite Hd. reflexivity.
Qed.

(** Every instance selects something or nothing: [selects] is total. *)
Lemma selects_total (cases : list (bool * pyobj)) (d : pyobj) :
  exists sel, selects cases d sel.
Proof.
  assert (Hsplit : no_match cases \/
          exists pre v post, cases = (pre ++ (true, v) :: post)%list /\ no_match pre).
  { induction cases as [| [c v] rest IH].
    - left. constructor.
    - destruct c.
      + right. exists [], v, rest. split; [reflexivity | constructor].
      + destruct IH as [Hno | (pre & w & post & -> & Hpre)].
        * left. constructor; [reflexivity | assumption].
        * right. exists ((false, v) :: pre), w, post.
          split; [reflexivity | constructor; [reflexivity | assumption]]. }
  destruct Hsplit as [Hno | (pre & v & post & Heq & Hpre)].
  - destruct (is_UNSET d) eqn:Hd.
    + exists None. apply sel_nothing; [assumption | now apply is_UNSET_true].
    + exists (Some d). apply sel_default; [assumption | now apply is_UNSET_false].
  - exists (Some v). eapply sel_branch; eassumption.
Qed.

Lemma whens_cases (pairs : list (bool * pyobj)) (self : Conditions.t) :
  Conditions._cases (whens pairs self) = (Conditions._cases self ++ pairs)%list.
Proof.
  revert self. induction pairs as [| p rest IH]; intro self; simpl.
  - now rewrite app_nil_r.
  - unfold whens in IH. rewrite IH. destruct p as [c v]; simpl.
    now rewrite <- app_assoc.
Qed.

Lemma whens_default (pairs : list (bool * pyobj)) (self : Conditions.t) :
  Conditions._default (whens pairs self) = Conditions._default self.
Proof.
  revert self. induction pairs as [| p rest IH]; intro self; simpl.
  - reflexivity.
  - unfold whens in IH. now rewrite IH.
Qed.

Lemma instance_eta (self : Conditions.t) :
  self = Conditions.mk (Conditions._cases self) (Conditions._default self).
Proof. destruct self; reflexivity. Qed.

(** C1: whatever the instance's default and however many later branches are
    truthy, an instance whose branches (appended by [when] to a fresh
    instance, in order) start with falsy conditions up to a first truthy
    branch [(true, v)] resolves to the value of that branch: [v] itself, or
    the outcome of calling it when it is callable.  [cond] does the same on
    the pairs it is passed. *)
Theorem first_truthy_branch_wins
        (pre post : list (bool * pyobj)) (v d : pyobj) (self : Conditions.t) (st : State) :
  no_match pre ->
  Conditions._cases self = (pre ++ (true, v) :: post)%list ->
  Conditions._cases (whens (pre ++ (true, v) :: post) Conditions.__init__)
    = (pre ++ (true, v) :: post)%list
  /\ Conditions._resolve self st = _resolve_value v st
  /\ Conditions._resolve (whens (pre ++ (true, v) :: post) Conditions.__init__) st
     = _resolve_value v st
  /\ cond (pre ++ (true, v) :: post) d st = _resolve_value v st
  /\ _resolve_value v st =
     match v with
     | PFunc f => (fst (call_fn f (world st)),
                   mkState (snd (call_fn f (world st))) (calls st ++ [f]))
     | _ => (Returns v, st)
     end.
Proof.
  intros Hpre Hcases.
  assert (Hsel : forall dflt, selects (pre ++ (true, v) :: post) dflt (Some v)).
  { intro dflt. eapply sel_branch; [reflexivity | assumption]. }
  split; [apply (whens_cases _ Conditions.__init__) |].
  split.
  { rewrite (instance_eta self), Hcases. simpl.
    apply (resolve_selects _ _ _ _ (Hsel _)). }
  split.
  { rewrite (instance_eta (whens _ _)), whens_cases. simpl.
    apply (resolve_selects _ _ _ _ (Hsel _)). }
  split.
  { rewrite cond_same. apply (resolve_selects _ _ _ _ (Hsel _)). }
  rewrite resolve_value_cases. destruct v; reflexivity.
Qed.

(** *** The trusted-text conversion *)

Lemma chars_app (a b : string) :
  list_ascii_of_string (a ++ b) = (list_ascii_of_string a ++ list_ascii_of_string b)%list.
Proof. induction a as [| c a IH]; simpl; [reflexivity | now rewrite IH]. Qed.

Lemma escape_char_safe (a c : ascii) :
  In c (list_ascii_of_string (escape_char a)) -> ~ raw_meta c.
Proof.
  unfold escape_char, raw_meta.
  destruct (Ascii.eqb_spec a "&");
    [| destruct (Ascii.eqb_spec a "<");
       [| destruct (Ascii.eqb_spec a ">");
          [| destruct (Ascii.eqb_spec a "'");
             [| destruct (Ascii.eqb_spec a dquote)]]]];
    simpl; intros Hin Hraw.
  1-5: repeat (destruct Hin as [<- | Hin]; [
         destruct Hraw as [H | [H | [H | H]]]; discriminate H |]);
       exact Hin.
  destruct Hin as [<- | []].
  destruct Hraw as [H | [H | [H | H]]]; congruence.
Qed.

Lemma escape_text_safe (s : string) (c : ascii) :
  In c (list_ascii_of_string (escape_text s)) -> ~ raw_meta c.
Proof.
  induction s as [| a s IH]; simpl.
  - intros [].
  - rewrite chars_app, in_app_iff. intros [H | H].
    + now apply escape_char_safe with a.
    + now apply IH.
Qed.

(** What [str] does, kind of value by kind of value. *)
Lemma py_str_cases (v : pyobj) (st : State) :
  py_str v st =
  match v with
  | PInt n =>
      if int_str_too_long n
      then (Raises ValueError_int_digits, st)
      else (Returns (NilZero.string_of_int (Z.to_int n)), st)
  | PObject (S a) =>
      (fst (str_fn (S a) (world st)),
       mkState (snd (str_fn (S a) (world st))) (calls st))
  | PNone => (Returns "None", st)
  | PBool b => (Returns (if b then "True" else "False"), st)
  | PStr s => (Returns s, st)
  | PMarkup m => (Returns (markup_text m), st)
  | PObject 0 | PFunc _ | PHtml _ => (Returns (obj_str v), st)
  end.
Proof.
  destruct v as [| [|] | n | s | m | [| a] | f | o]; try reflexivity.
  unfold py_str. destruct (int_str_too_long n); reflexivity.
Qed.

(** A value that is not [None] and has no hook goes through [str] and
    [escape]; an exception of [str] comes out as it is. *)
Lemma to_markup_plain (v : pyobj) (st : State) :
  v <> PNone -> HasHTMLDunder v = false ->
  _to_markup v st =
  match py_str v st with
  | (Returns text, st1) => (Returns (escape text), st1)
  | (Raises e, st1) => (Raises e, st1)
  end.
Proof.
  intros Hv Hh. destruct v; try discriminate Hh; try reflexivity.
  now contradiction Hv.
Qed.

(** C2: the conversion escapes plain data character by character ([&], [<],
    [>] and both quotes become entities, every other character stays), so
    that no raw [<], [>] or quote is left and the string [<b>] becomes
    [&lt;b&gt;]; [None] gives empty trusted text; trusted text comes back
    unchanged; and the output of an object's rendering hook is wrapped as it
    is, not escaped.  Plain data other than a string is escaped after [str]:
    an int by its decimal text, unless it has more digits than [str]
    converts, in which case the [ValueError] of [str] comes out. *)
Theorem to_markup_escapes_plain_data_only
        (s : string) (m : Markup) (o : nat) (n : Z) (st : State) :
  _to_markup (PStr s) st = (Returns (mkMarkup (escape_text s)), st)
  /\ _to_markup (PInt n) st =
     (if int_str_too_long n
      then (Raises ValueError_int_digits, st)
      else (Returns (escape (NilZero.string_of_int (Z.to_int n))), st))
  /\ (forall v, v <> PNone -> HasHTMLDunder v = false ->
                _to_markup v st =
                match py_str v st with
                | (Returns text, st1) => (Returns (escape text), st1)
                | (Raises e, st1) => (Raises e, st1)
                end)
  /\ escape_text (String "&" s) = "&amp;" ++ escape_text s
  /\ escape_text (String "<" s) = "&lt;" ++ escape_text s
  /\ escape_text (String ">" s) = "&gt;" ++ escape_text s
  /\ escape_text (String "'" s) = "&#39;" ++ escape_text s
  /\ escape_text (String dquote s) = "&#34;" ++ escape_text s
  /\ (forall c, ~ raw_meta c -> c <> "&"%char ->
                escape_text (String c s) = String c (escape_text s))
  /\ (forall c, In c (list_ascii_of_string (escape_text s)) -> ~ raw_meta c)
  /\ _to_markup (PStr "<b>") st = (Returns (mkMarkup "&lt;b&gt;"), st)
  /\ _to_markup PNone st = (Returns (mkMarkup EmptyString), st)
  /\ _to_markup (PMarkup m) st = (Returns m, st)
  /\ _to_markup (PMarkup (mkMarkup "<b>")) st = (Returns (mkMarkup "<b>"), st)
  /\ _to_markup (PHtml o) st =
     (match fst (html_fn o (world st)) with
      | Returns text => Returns (mkMarkup text)
      | Raises e => Raises e
      end,
      mkState (snd (html_fn o (world st))) (calls st)).
Proof.
  repeat match goal with |- _ /\ _ => split end; try reflexivity.
  - rewrite to_markup_plain by (reflexivity || discriminate).
    rewrite py_str_cases. destruct (int_str_too_long n); reflexivity.
  - intros v Hv Hh. now apply to_markup_plain.
  - intros c Hraw Hamp. unfold raw_meta in Hraw. simpl. unfold escape_char.
    destruct (Ascii.eqb_spec c "&"); [contradiction |].
    destruct (Ascii.eqb_spec c "<"); [tauto |].
    destruct (Ascii.eqb_spec c ">"); [tauto |].
    destruct (Ascii.eqb_spec c "'"); [tauto |].
    destruct (Ascii.eqb_spec c dquote); [tauto |].
    reflexivity.
  - apply escape_text_safe.
  - destruct m; reflexivity.
  - unfold _to_markup, bind, py_html, hook; simpl.
    destruct (fst (html_fn o (world st))); reflexivity.
Qed.

(** *** Laziness *)

Lemma html_unfold (self : Conditions.t) (st : State) :
  Conditions.__html__ self st =
  match Conditions._resolve self st with
  | (Returns v, st') => _to_markup v st'
  | (Raises e, st') => (Raises e, st')
  end.
Proof. reflexivity. Qed.

(** The conversion calls hooks, never a deferred computation. *)
Lemma to_markup_calls (v : pyobj) (st : State) :
  calls (snd (_to_markup v st)) = calls st.
Proof.
  destruct v as [| [|] | n | s | m | [| a] | f | o]; try reflexivity.
  - rewrite to_markup_plain by (reflexivity || discriminate).
    rewrite py_str_cases. destruct (int_str_too_long n); reflexivity.
  - rewrite to_markup_plain by (reflexivity || discriminate).
    rewrite py_str_cases.
    destruct (fst (str_fn (S a) (world st))); reflexivity.
  - unfold _to_markup, bind, py_html, hook; simpl.
    destruct (fst (html_fn o (world st))); reflexivity.
Qed.

Lemma resolve_calls (cases : list (bool * pyobj)) (d : pyobj)
      (sel : option pyobj) (st : State) :
  selects cases d sel ->
  calls (snd (Conditions._resolve (Conditions.mk cases d) st)) =
  match sel with
  | Some (PFunc f) => (calls st ++ [f])%list
  | _ => calls st
  end.
Proof.
  intro Hsel. rewrite (resolve_selects _ _ _ _ Hsel).
  destruct sel as [v |]; [| reflexivity].
  rewrite resolve_value_cases. destruct v; reflexivity.
Qed.

Lemma html_calls (self : Conditions.t) (st : State) :
  calls (snd (Conditions.__html__ self st)) =
  calls (snd (Conditions._resolve self st)).
Proof.
  rewrite html_unfold.
  destruct (Conditions._resolve self st) as [[v | e] st']; simpl.
  - apply to_markup_calls.
  - reflexivity.
Qed.

Lemma count_after (l : list nat) (sel : option pyobj) (g : nat) :
  count_occ Nat.eq_dec
    match sel with
    | Some (PFunc f) => (l ++ [f])%list
    | _ => l
    end g
  - count_occ Nat.eq_dec l g
  = if is_thunk sel g then 1 else 0.
Proof.
  assert (Hsame : count_occ Nat.eq_dec l g - count_occ Nat.eq_dec l g = 0) by lia.
  destruct sel as [[| | | | | | f |] |]; simpl; try exact Hsame.
  rewrite count_occ_app. simpl.
  destruct (Nat.eq_dec f g) as [-> | Hne].
  - rewrite Nat.eqb_refl. lia.
  - apply Nat.eqb_neq in Hne. rewrite Hne. lia.
Qed.

(** C3: one resolution of an instance (through [_resolve] or through the hook
    [__html__]) and one call of [cond] invoke the selected value once when it
    is callable, and invoke nothing else: the log of the invocations grows by
    that single call or not at all, so every other callable, be it the value
    of an earlier skipped branch, of a later branch or an unselected default,
    is invoked zero times. *)
Theorem only_selected_computation_invoked
        (cases : list (bool * pyobj)) (d : pyobj) (sel : option pyobj)
        (st : State) (g : nat) :
  selects cases d sel ->
  calls (snd (Conditions._resolve (Conditions.mk cases d) st)) =
    match sel with
    | Some (PFunc f) => (calls st ++ [f])%list
    | _ => calls st
    end
  /\ calls (snd (cond cases d st)) =
       calls (snd (Conditions._resolve (Conditions.mk cases d) st))
  /\ invocations (Conditions._resolve (Conditions.mk cases d)) st g
     = (if is_thunk sel g then 1 else 0)
  /\ invocations (Conditions.__html__ (Conditions.mk cases d)) st g
     = (if is_thunk sel g then 1 else 0)
  /\ invocations (cond cases d) st g
     = (if is_thunk sel g then 1 else 0).
Proof.
  intro Hsel. unfold invocations.
  rewrite html_calls, cond_same, (resolve_calls _ _ _ _ Hsel).
  repeat split; try reflexivity; apply count_after.
Qed.

(** *** Fallback *)

(** C4: when no condition is truthy, an instance on which [default] was
    called with a value other than the module's own sentinel resolves to
    exactly the resolved value of that default, and so does [cond]: the
    outcome of calling it when it is callable, the value itself otherwise;
    an explicit [None] stays [None] and an explicit [False] stays [False].  An
    instance on which [default] was never called, and a call of [cond]
    without the keyword, yield [None], which is rendered as empty text. *)
Theorem no_match_falls_back_to_default
        (cases : list (bool * pyobj)) (d : pyobj) (self : Conditions.t) (st : State) :
  no_match cases ->
  Conditions._cases self = cases ->
  d <> _UNSET ->
  Conditions._resolve (Conditions.default self d) st = _resolve_value d st
  /\ cond cases (kwarg_default (Some d)) st = _resolve_value d st
  /\ Conditions._resolve (Conditions.default self PNone) st = (Returns PNone, st)
  /\ Conditions._resolve (Conditions.default self (PBool false)) st
     = (Returns (PBool false), st)
  /\ cond cases (kwarg_default (Some PNone)) st = (Returns PNone, st)
  /\ cond cases (kwarg_default (Some (PBool false))) st = (Returns (PBool false), st)
  /\ Conditions._resolve (whens cases Conditions.__init__) st = (Returns PNone, st)
  /\ cond cases (kwarg_default None) st = (Returns PNone, st)
  /\ _to_markup PNone st = (Returns (mkMarkup EmptyString), st)
  /\ Conditions.__html__ (whens cases Conditions.__init__) st
     = (Returns (mkMarkup EmptyString), st)
  /\ _resolve_value d st =
     match d with
     | PFunc f => (fst (call_fn f (world st)),
                   mkState (snd (call_fn f (world st))) (calls st ++ [f]))
     | _ => (Returns d, st)
     end.
Proof.
  intros Hno Hcases Hd.
  assert (Hset : forall x, x <> _UNSET ->
            Conditions._resolve (Conditions.mk cases x) st = _resolve_value x st).
  { intros x Hx. apply (resolve_selects cases x (Some x)). now apply sel_default. }
  assert (Hunset : Conditions._resolve (Conditions.mk cases _UNSET) st
                   = (Returns PNone, st)).
  { apply (resolve_selects cases _UNSET None). now apply sel_nothing. }
  assert (Hfresh : whens cases Conditions.__init__ = Conditions.mk cases _UNSET).
  { rewrite (instance_eta (whens _ _)), whens_cases, whens_default. reflexivity. }
  unfold Conditions.default. rewrite Hcases, Hfresh, html_unfold, Hunset.
  rewrite !cond_same. simpl kwarg_default. rewrite Hunset.
  repeat split; try (apply Hset; (assumption || discriminate)).
  rewrite resolve_value_cases. destruct d; reflexivity.
Qed.

(** *** [cond] and the builder *)

(** C5: for every list of pairs and every optional default, [cond] applied to
    them does exactly what resolving a fresh instance does after one [when]
    per pair, in order, and a call of [default] when a default is given: same
    result or same exception, same effects. *)
Theorem cond_is_builder_then_resolve
        (pairs : list (bool * pyobj)) (given : option pyobj) (st : State) :
  cond pairs (kwarg_default given) st =
  Conditions._resolve
    match given with
    | Some d => Conditions.default (whens pairs Conditions.__init__) d
    | None => whens pairs Conditions.__init__
    end st.
Proof.
  rewrite cond_same. f_equal.
  destruct given as [d |]; simpl.
  - unfold Conditions.default. now rewrite whens_cases.
  - now rewrite (instance_eta (whens _ _)), whens_cases, whens_default.
Qed.

(** *** The rendering hook *)

(** C6, as the code has it: the hook of an instance does not hand back the
    resolved value: it converts it to trusted text itself, by [_to_markup],
    in the state the resolution left, and an exception of the resolution
    comes out of the hook as it is.  What the hook returns is trusted text, so
    a caller that converts it again gets it back unchanged. *)
Theorem html_converts_resolved_value
        (self : Conditions.t) (m : Markup) (st st2 : State) :
  Conditions.__html__ self st =
    match Conditions._resolve self st with
    | (Returns v, st1) => _to_markup v st1
    | (Raises e, st1) => (Raises e, st1)
    end
  /\ Conditions.__html__ (Conditions.when Conditions.__init__ true (PStr "<b>")) st
     = (Returns (mkMarkup "&lt;b&gt;"), st)
  /\ _to_markup (PMarkup m) st2 = (Returns m, st2).
Proof.
  repeat split; try reflexivity. destruct m; reflexivity.
Qed.

(** *** The sentinel *)

Lemma chain_app (l1 l2 : list builder_call) (self : Conditions.t) :
  chain (l1 ++ l2) self = chain l2 (chain l1 self).
Proof. apply fold_left_app. Qed.

Lemma chain_whens_default (l : list builder_call) (self : Conditions.t) :
  Forall is_when l ->
  Conditions._default (chain l self) = Conditions._default self.
Proof.
  intro H. revert self.
  induction H as [| c l Hc _ IH]; intro self; simpl.
  - reflexivity.
  - unfold chain in IH. rewrite IH. destruct c; [reflexivity | destruct Hc].
Qed.

Lemma chain_keeps_default (l : list builder_call) (self : Conditions.t) :
  Forall legal_call l ->
  Conditions._default self <> _UNSET ->
  Conditions._default (chain l self) <> _UNSET.
Proof.
  intro H. revert self.
  induction H as [| c l Hc _ IH]; intros self Hself; simpl.
  - exact Hself.
  - apply IH. destruct c; simpl in *; assumption.
Qed.

(** Where a returned value comes from: it is [None], a value the caller gave
    (a branch value, or a default that is not the sentinel), or what a
    callable of the caller returned. *)
Lemma resolve_provenance (cases : list (bool * pyobj)) (d r : pyobj) (st : State) :
  fst (Conditions._resolve (Conditions.mk cases d) st) = Returns r ->
  r = PNone
  \/ In r (map snd cases)
  \/ (r = d /\ d <> _UNSET)
  \/ exists f, fst (call_fn f (world st)) = Returns r.
Proof.
  destruct (selects_total cases d) as [sel Hsel].
  rewrite (resolve_selects _ _ _ _ Hsel).
  destruct Hsel as [pre v post -> Hpre | Hno Hd | Hno Hd].
  - rewrite resolve_value_cases. intro H.
    assert (Hin : In v (map snd (pre ++ (true, v) :: post))).
    { rewrite map_app, in_app_iff. right. left. reflexivity. }
    destruct v; simpl in H;
      try (injection H as <-; right; left; exact Hin).
    right; right; right. now exists addr.
  - rewrite resolve_value_cases. intro H.
    destruct d; simpl in H;
      try (injection H as <-; right; right; left; now split).
    right; right; right. now exists addr.
  - simpl. intro H. injection H as <-. now left.
Qed.

(** C7: the sentinel does not come out of a resolution or of [cond] when the
    caller has not put it in (as a branch value or as the result of one of
    its callables): the value returned is never the sentinel.  A second call
    of [default] overwrites the first, and after any chain of builder calls
    the slot holds the value of the last [default] call.  Once [default] has
    been called with a value of the caller, [None] and [False] included, no
    chain of later builder calls brings the slot back to the sentinel. *)
Theorem sentinel_stays_inside
        (cases : list (bool * pyobj)) (d v v1 v2 : pyobj) (self : Conditions.t)
        (before after later : list builder_call) (st : State) :
  Forall (fun b => snd b <> _UNSET) cases ->
  (forall f w, fst (call_fn f w) <> Returns _UNSET) ->
  Forall is_when after ->
  v <> _UNSET ->
  Forall legal_call later ->
  fst (Conditions._resolve (Conditions.mk cases d) st) <> Returns _UNSET
  /\ fst (cond cases d st) <> Returns _UNSET
  /\ Conditions.default (Conditions.default self v1) v2 = Conditions.default self v2
  /\ Conditions._default (chain (before ++ Default v2 :: after) self) = v2
  /\ is_UNSET (Conditions._default (chain later (Conditions.default self v))) = false
  /\ is_UNSET (Conditions._default (chain later (Conditions.default self PNone))) = false
  /\ is_UNSET (Conditions._default (chain later (Conditions.default self (PBool false))))
     = false.
Proof.
  intros Hcases Hcalls Hafter Hv Hlater.
  assert (Hres : fst (Conditions._resolve (Conditions.mk cases d) st) <> Returns _UNSET).
  { intro H. apply resolve_provenance in H.
    destruct H as [H | [H | [[H1 H2] | [f H]]]].
    - discriminate H.
    - apply in_map_iff in H. destruct H as [[c x] [Hx Hin]]. simpl in Hx. subst x.
      rewrite Forall_forall in Hcases. now apply (Hcases _ Hin).
    - now apply H2.
    - now apply (Hcalls f (world st)). }
  split; [exact Hres |].
  split; [now rewrite cond_same |].
  split; [reflexivity |].
  split.
  { rewrite chain_app. simpl. fold (chain after (apply_call (chain before self) (Default v2))).
    now rewrite chain_whens_default. }
  repeat split; apply is_UNSET_false; apply chain_keeps_default;
    try assumption; simpl; (assumption || discriminate).
Qed.

(** *** Exceptions *)













(** *** Callability is the only marker *)

(** C9: the value a resolution selects is called exactly when it is callable.
    A callable value, whatever it was meant to be, is invoked and the outcome
    of the call is the result; any other value is the result as it stands,
    with no effect. *)
Theorem callable_values_are_invoked
        (cases : list (bool * pyobj)) (d v : pyobj) (st : State) :
  selects cases d (Some v) ->
  (callable v = true ->
   exists f, v = PFunc f
     /\ Conditions._resolve (Conditions.mk cases d) st = invoke f st
     /\ cond cases d st = invoke f st
     /\ invoke f st = (fst (call_fn f (world st)),
                       mkState (snd (call_fn f (world st))) (calls st ++ [f])))
  /\ (callable v = false ->
      Conditions._resolve (Conditions.mk cases d) st = (Returns v, st)
      /\ cond cases d st = (Returns v, st)).
Proof.
  intro Hsel. rewrite cond_same, (resolve_selects _ _ _ _ Hsel), resolve_value_cases.
  split; intro Hc.
  - destruct v; try discriminate Hc. exists addr. repeat split.
  - destruct v; try discriminate Hc; split; reflexivity.
Qed.

(** *** [cond] without a match *)

(** C10: when no pair matches, [cond] called without the keyword [default] and
    [cond] called with [default=None] do the same thing: both return [None]
    and leave the state as it was. *)
Theorem cond_no_default_same_as_None
        (pairs : list (bool * pyobj)) (st : State) :
  no_match pairs ->
  cond pairs (kwarg_default None) st = cond pairs (kwarg_default (Some PNone)) st
  /\ cond pairs (kwarg_default None) st = (Returns PNone, st).
Proof.
  intro Hno. rewrite !cond_same. simpl kwarg_default.
  rewrite (resolve_selects pairs _UNSET None) by now apply sel_nothing.
  rewrite (resolve_selects pairs PNone (Some PNone))
    by (apply sel_default; [assumption | discriminate]).
  split; reflexivity.
Qed.

(** *** Beyond the first match *)

Lemma has_match_split (cases : list (bool * pyobj)) :
  has_match cases = true ->
  exists pre v post, cases = (pre ++ (true, v) :: post)%list /\ no_match pre.
Proof.
  induction cases as [| [c v] rest IH]; simpl; intro H.
  - discriminate H.
  - destruct c; simpl in H.
    + exists [], v, rest. split; [reflexivity | constructor].
    + destruct (IH H) as (pre & w & post & -> & Hpre).
      exists ((false, v) :: pre), w, post.
      split; [reflexivity | constructor; [reflexivity | assumption]].
Qed.

Lemma chain_cases (l : list builder_call) (self : Conditions.t) :
  Conditions._cases (chain l self) = (Conditions._cases self ++ branches_of l)%list.
Proof.
  revert self. induction l as [| c l IH]; intro self; simpl.
  - now rewrite app_nil_r.
  - unfold chain in IH. rewrite IH. destruct c; simpl.
    + now rewrite <- app_assoc.
    + reflexivity.
Qed.

Lemma chain_default (l : list builder_call) (self : Conditions.t) :
  Conditions._default (chain l self) = last_default l (Conditions._default self).
Proof.
  revert self. induction l as [| c l IH]; intro self; simpl.
  - reflexivity.
  - unfold chain in IH. rewrite IH. destruct c; reflexivity.
Qed.

(** An instance with a truthy branch resolves to that branch whatever is
    appended to its branches and whatever its default is. *)
Lemma resolve_matched_prefix (cases more : list (bool * pyobj)) (d1 d2 : pyobj) (st : State) :
  has_match cases = true ->
  Conditions._resolve (Conditions.mk (cases ++ more) d1) st =
  Conditions._resolve (Conditions.mk cases d2) st.
Proof.
  intro H. destruct (has_match_split _ H) as (pre & v & post & -> & Hpre).
  rewrite <- app_assoc. simpl.
  rewrite (resolve_selects _ d1 (Some v)) by (eapply sel_branch; [reflexivity | exact Hpre]).
  rewrite (resolve_selects _ d2 (Some v)) by (eapply sel_branch; [reflexivity | exact Hpre]).
  reflexivity.
Qed.

(** X1: once an instance holds a branch with a truthy condition, no further
    builder call changes what it resolves to: neither a [when] appended
    later, truthy or not, nor a [default] set or overwritten later changes
    the result, the exception or the effects of [_resolve] and [__html__].
    For [cond], pairs added after a matching pair and the keyword [default]
    are likewise without influence. *)
Theorem matched_instance_ignores_later_calls
        (self : Conditions.t) (later : list builder_call)
        (more : list (bool * pyobj)) (d1 d2 : pyobj) (st : State) :
  has_match (Conditions._cases self) = true ->
  Conditions._resolve (chain later self) st = Conditions._resolve self st
  /\ Conditions.__html__ (chain later self) st = Conditions.__html__ self st
  /\ cond (Conditions._cases self ++ more) d1 st = cond (Conditions._cases self) d2 st.
Proof.
  intro H.
  assert (Hres : Conditions._resolve (chain later self) st = Conditions._resolve self st).
  { rewrite (instance_eta (chain later self)), (instance_eta self) at 1.
    rewrite chain_cases. simpl. now apply resolve_matched_prefix. }
  split; [exact Hres |].
  split.
  - rewrite !html_unfold, Hres. reflexivity.
  - rewrite !cond_same. now apply resolve_matched_prefix.
Qed.

Lemma resolve_loop_truthy_only (cases : list (bool * pyobj)) (st : State) :
  Conditions._resolve_loop cases st = Conditions._resolve_loop (truthy_only cases) st.
Proof.
  induction cases as [| [c v] rest IH]; simpl.
  - reflexivity.
  - destruct c; simpl; [reflexivity | exact IH].
Qed.

(** X2: branches whose condition is falsy are dead weight wherever they
    stand: removing all of them from an instance, or from the pairs given to
    [cond], changes nothing in the result, the exception raised, the world
    or the calls made. *)
Theorem falsy_branches_can_be_dropped
        (cases : list (bool * pyobj)) (d : pyobj) (st : State) :
  Conditions._resolve (Conditions.mk cases d) st
  = Conditions._resolve (Conditions.mk (truthy_only cases) d) st
  /\ Conditions.__html__ (Conditions.mk cases d) st
     = Conditions.__html__ (Conditions.mk (truthy_only cases) d) st
  /\ cond cases d st = cond (truthy_only cases) d st.
Proof.
  assert (Hres : Conditions._resolve (Conditions.mk cases d) st
                 = Conditions._resolve (Conditions.mk (truthy_only cases) d) st).
  { unfold Conditions._resolve, bind; simpl.
    now rewrite resolve_loop_truthy_only. }
  split; [exact Hres |].
  split.
  - rewrite !html_unfold, Hres. reflexivity.
  - now rewrite !cond_same.
Qed.

(** *** The builder *)

Lemma branches_of_app (l1 l2 : list builder_call) :
  branches_of (l1 ++ l2) = (branches_of l1 ++ branches_of l2)%list.
Proof. apply flat_map_app. Qed.

Lemma branches_of_whens (l : list builder_call) :
  branches_of (filter is_when_b l) = branches_of l.
Proof.
  induction l as [| c l IH]; simpl; [reflexivity |].
  destruct c; simpl; [now rewrite IH | exact IH].
Qed.

Lemma branches_of_defaults (l : list builder_call) :
  branches_of (filter is_default_b l) = [].
Proof.
  induction l as [| c l IH]; simpl; [reflexivity |].
  destruct c; simpl; exact IH.
Qed.

Lemma last_default_whens (l : list builder_call) (init : pyobj) :
  last_default (filter is_when_b l) init = init.
Proof.
  revert init. induction l as [| c l IH]; intro init; simpl; [reflexivity |].
  destruct c; simpl; apply IH.
Qed.

Lemma last_default_defaults (l : list builder_call) (init : pyobj) :
  last_default (filter is_default_b l) init = last_default l init.
Proof.
  revert init. induction l as [| c l IH]; intro init; simpl; [reflexivity |].
  destruct c; simpl; apply IH.
Qed.

Lemma chain_normal_form (l : list builder_call) (self : Conditions.t) :
  chain l self =
  Conditions.mk (Conditions._cases self ++ branches_of l)
                (last_default l (Conditions._default self)).
Proof.
  rewrite (instance_eta (chain l self)), chain_cases, chain_default. reflexivity.
Qed.

(** X3: in a chain of builder calls only the order of the [when] calls among
    themselves and the last [default] call count.  The instance a chain
    builds has the branches of its [when] calls, in order, after those it
    had, and the value of its last [default] call in the slot; so moving
    every [default] call to the end of the chain builds the same instance,
    and a [when] and a [default] call commute. *)
Theorem default_calls_can_move
        (l : list builder_call) (self : Conditions.t) (c : bool) (v d : pyobj) :
  chain l self =
    Conditions.mk (Conditions._cases self ++ branches_of l)
                  (last_default l (Conditions._default self))
  /\ chain l self = chain (filter is_when_b l ++ filter is_default_b l) self
  /\ Conditions.default (Conditions.when self c v) d
     = Conditions.when (Conditions.default self d) c v.
Proof.
  split; [apply chain_normal_form |].
  split; [| reflexivity].
  rewrite !chain_normal_form.
  rewrite branches_of_app, branches_of_whens, branches_of_defaults, app_nil_r.
  f_equal.
  unfold last_default. rewrite fold_left_app.
  fold (last_default (filter is_when_b l) (Conditions._default self)).
  rewrite last_default_whens.
  fold (last_default (filter is_default_b l) (Conditions._default self)).
  now rewrite last_default_defaults.
Qed.

(** *** What a deferred computation returns *)

(** X5: deferral is one level deep.  When the selected callable returns
    another callable, that second callable is the result of [_resolve] and of
    [cond] as an object: it is not called.  The hook [__html__] renders it as
    any value without a hook, by the escaped text of [str]. *)
Theorem deferral_is_one_level
        (cases : list (bool * pyobj)) (d : pyobj) (f g : nat) (w1 : World) (st : State) :
  selects cases d (Some (PFunc f)) ->
  call_fn f (world st) = (Returns (PFunc g), w1) ->
  Conditions._resolve (Conditions.mk cases d) st
  = (Returns (PFunc g), mkState w1 (calls st ++ [f]))
  /\ cond cases d st = (Returns (PFunc g), mkState w1 (calls st ++ [f]))
  /\ Conditions.__html__ (Conditions.mk cases d) st
     = (Returns (escape (obj_str (PFunc g))), mkState w1 (calls st ++ [f])).
Proof.
  intros Hsel Hcall.
  assert (Hres : Conditions._resolve (Conditions.mk cases d) st
                 = (Returns (PFunc g), mkState w1 (calls st ++ [f]))).
  { rewrite (resolve_selects _ _ _ _ Hsel), resolve_value_cases.
    unfold invoke. now rewrite Hcall. }
  split; [exact Hres |].
  split; [now rewrite cond_same |].
  rewrite html_unfold, Hres. reflexivity.
Qed.

(** X6: a deferred computation may return a renderable object.  The hook
    [__html__] of the instance then calls the computation first and the
    [__html__] of the object it returned second, in the world the
    computation left, and returns that output as trusted text, unescaped;
    the computation is logged once. *)
Theorem deferred_renderable_is_rendered
        (cases : list (bool * pyobj)) (d : pyobj) (f o : nat) (w1 w2 : World)
        (text : string) (st : State) :
  selects cases d (Some (PFunc f)) ->
  call_fn f (world st) = (Returns (PHtml o), w1) ->
  html_fn o w1 = (Returns text, w2) ->
  Conditions.__html__ (Conditions.mk cases d) st
  = (Returns (mkMarkup text), mkState w2 (calls st ++ [f])).
Proof.
  intros Hsel Hcall Hhook.
  rewrite html_unfold, (resolve_selects _ _ _ _ Hsel), resolve_value_cases.
  unfold invoke. rewrite Hcall. simpl.
  unfold bind, hook. simpl. now rewrite Hhook.
Qed.

(** *** What the hook lets through *)

(** X7: when an instance resolves to a value that has no rendering hook of
    its own ([None], plain data, an object of the caller, a callable returned
    by a computation), whatever text its hook [__html__] returns holds no raw
    [<], [>] or quote.  The hook returns normally whenever [str] of that value
    does, and raises the exception of [str] otherwise. *)
Theorem hook_output_is_escaped
        (self : Conditions.t) (r : pyobj) (st st1 : State) :
  Conditions._resolve self st = (Returns r, st1) ->
  HasHTMLDunder r = false ->
  (forall m st2,
      Conditions.__html__ self st = (Returns m, st2) ->
      forall c, In c (list_ascii_of_string (markup_text m)) -> ~ raw_meta c)
  /\ (forall text,
        fst (py_str r st1) = Returns text ->
        exists m st2, Conditions.__html__ self st = (Returns m, st2))
  /\ (forall e,
        r <> PNone ->
        fst (py_str r st1) = Raises e ->
        fst (Conditions.__html__ self st) = Raises e).
Proof.
  intros Hres Hh. rewrite html_unfold, Hres.
  destruct r as [| b | n | s | m0 | a | f | o]; try discriminate Hh.
  1: { simpl. repeat split.
       - intros m st2 H. injection H as <- <-. intros c [].
       - intros text _. now eexists; eexists.
       - intros e Hn. now contradiction Hn. }
  all: rewrite to_markup_plain by (reflexivity || discriminate);
    destruct (py_str _ st1) as [[t | e1] s1]; simpl; repeat split;
    [ intros m st2 H; injection H as <- <-; simpl; apply escape_text_safe
    | intros text _; now eexists; eexists
    | intros e _ H; discriminate H
    | intros m st2 H; discriminate H
    | intros text H; discriminate H
    | intros e _ H; congruence ].
Qed.

End Properties.

(** ** The properties on the concrete runtime *)

#[local] Existing Instance demo.

(** *** The cases of [tests/conditional_test.py] *)

Example test_when_first_truthy_wins :
  Conditions.__html__
    (Conditions.default
       (Conditions.when (Conditions.when Conditions.__init__ true (PStr "a")) true (PStr "b"))
       (PStr "c")) demo_state
  = (Returns (mkMarkup "a"), demo_state).
Proof. reflexivity. Qed.

Example test_when_skips_falsy :
  Conditions.__html__
    (Conditions.default
       (Conditions.when (Conditions.when Conditions.__init__ false (PStr "a")) true (PStr "b"))
       (PStr "c")) demo_state
  = (Returns (mkMarkup "b"), demo_state).
Proof. reflexivity. Qed.

Example test_when_uses_default_when_no_match :
  Conditions.__html__
    (Conditions.default
       (Conditions.when (Conditions.when Conditions.__init__ false (PStr "a")) false (PStr "b"))
       (PStr "default")) demo_state
  = (Returns (mkMarkup "default"), demo_state).
Proof. reflexivity. Qed.

Example test_when_no_cases_no_default :
  Conditions.__html__ Conditions.__init__ demo_state
  = (Returns (mkMarkup EmptyString), demo_state).
Proof. reflexivity. Qed.

Example test_when_lazy_value_called_on_match :
  calls (snd (Conditions.__html__
                (Conditions.when Conditions.__init__ true (PFunc 0)) demo_state)) = [0].
Proof. reflexivity. Qed.

Example test_when_lazy_value_not_called_when_not_matched :
  calls (snd (Conditions.__html__
                (Conditions.default
                   (Conditions.when Conditions.__init__ false (PFunc 0)) (PStr "other"))
                demo_state)) = [].
Proof. reflexivity. Qed.

Example test_when_lazy_default_not_called_when_matched :
  calls (snd (Conditions.__html__
                (Conditions.default
                   (Conditions.when Conditions.__init__ true (PStr "a")) (PFunc 0))
                demo_state)) = [].
Proof. reflexivity. Qed.

Example test_when_wraps_plain_string_with_escape :
  fst (Conditions.__html__
         (Conditions.when Conditions.__init__ true (PStr "<b>bold</b>")) demo_state)
  = Returns (mkMarkup "&lt;b&gt;bold&lt;/b&gt;").
Proof. reflexivity. Qed.

Example test_when_passes_through_markup :
  fst (Conditions.__html__
         (Conditions.when Conditions.__init__ true (PMarkup (mkMarkup "<b>safe</b>")))
         demo_state)
  = Returns (mkMarkup "<b>safe</b>").
Proof. reflexivity. Qed.

Example test_when_uses_html_dunder_on_value :
  fst (Conditions.__html__ (Conditions.when Conditions.__init__ true (PHtml 7)) demo_state)
  = Returns (mkMarkup "<span>hi</span>").
Proof. reflexivity. Qed.

Example test_when_explicit_none_default_renders_empty :
  fst (Conditions.__html__
         (Conditions.default (Conditions.when Conditions.__init__ false (PStr "a")) PNone)
         demo_state)
  = Returns (mkMarkup EmptyString).
Proof. reflexivity. Qed.

Example test_cond_first_truthy_wins :
  cond [(true, PStr "a"); (true, PStr "b")] (kwarg_default (Some (PStr "c"))) demo_state
  = (Returns (PStr "a"), demo_state).
Proof. reflexivity. Qed.

Example test_cond_returns_none_when_no_match_and_no_default :
  cond [(false, PStr "a"); (false, PStr "b")] (kwarg_default None) demo_state
  = (Returns PNone, demo_state).
Proof. reflexivity. Qed.

Example test_cond_lazy_default_called_when_no_match :
  cond [(false, PStr "a")] (kwarg_default (Some (PFunc 0))) demo_state
  = (Returns (PStr "lazy"), mkState 1 [0]).
Proof. reflexivity. Qed.

Example test_cond_explicit_false_default_returns_false :
  cond [(false, PStr "a")] (kwarg_default (Some (PBool false))) demo_state
  = (Returns (PBool false), demo_state).
Proof. reflexivity. Qed.

(** A computation that raises: the exception comes out, the call is logged
    once, and what the callable did to the world stays. *)
Example cond_selected_computation_raises :
  cond [(false, PFunc 0); (true, PFunc 1)] (kwarg_default None) demo_state
  = (Raises (PyExc "ValueError" "boom"), mkState 1 [1]).
Proof. reflexivity. Qed.

(** *** Counterexample and instances of the theorems *)

(** The claim C6 as the specification words it fails: the hook of an instance
    whose selected value is the plain string [<b>] returns the escaped text
    [&lt;b&gt;], not the text of the value. *)
Lemma html_does_not_return_value_itself :
  ~ html_returns_value_itself
      (Conditions.when Conditions.__init__ true (PStr "<b>")) demo_state.
Proof.
  intro H.
  specialize (H (PStr "<b>") (mkMarkup "&lt;b&gt;") eq_refl eq_refl).
  discriminate H.
Qed.

Lemma first_truthy_branch_wins_witness :
  no_match [(false, PFunc 1)]
  /\ Conditions._resolve
       (whens [(false, PFunc 1); (true, PFunc 0); (true, PStr "later")]
              Conditions.__init__) demo_state
     = (Returns (PStr "lazy"), mkState 1 [0])
  /\ cond [(false, PFunc 1); (true, PFunc 0); (true, PStr "later")] (PStr "d") demo_state
     = (Returns (PStr "lazy"), mkState 1 [0]).
Proof.
  assert (Hpre : no_match [(false, PFunc 1)]) by (repeat constructor).
  destruct (first_truthy_branch_wins
              [(false, PFunc 1)] [(true, PStr "later")] (PFunc 0) (PStr "d")
              (whens [(false, PFunc 1); (true, PFunc 0); (true, PStr "later")]
                     Conditions.__init__)
              demo_state Hpre eq_refl) as (_ & _ & H3 & H4 & _).
  split; [exact Hpre |].
  split; [exact H3 | exact H4].
Defined.

Lemma only_selected_computation_invoked_witness :
  selects [(false, PFunc 1); (true, PFunc 0); (true, PFunc 2)] (PFunc 3) (Some (PFunc 0))
  /\ invocations
       (Conditions._resolve
          (Conditions.mk [(false, PFunc 1); (true, PFunc 0); (true, PFunc 2)] (PFunc 3)))
       demo_state 0 = 1
  /\ invocations
       (cond [(false, PFunc 1); (true, PFunc 0); (true, PFunc 2)] (PFunc 3))
       demo_state 1 = 0.
Proof.
  assert (Hsel : selects [(false, PFunc 1); (true, PFunc 0); (true, PFunc 2)]
                         (PFunc 3) (Some (PFunc 0))).
  { apply (sel_branch _ _ [(false, PFunc 1)] (PFunc 0) [(true, PFunc 2)]);
      [reflexivity | repeat constructor]. }
  split; [exact Hsel |].
  split.
  - exact (proj1 (proj2 (proj2
      (only_selected_computation_invoked _ _ _ demo_state 0 Hsel)))).
  - exact (proj2 (proj2 (proj2 (proj2
      (only_selected_computation_invoked _ _ _ demo_state 1 Hsel))))).
Defined.

Lemma no_match_falls_back_to_default_witness :
  no_match [(false, PStr "a")]
  /\ PBool false <> _UNSET
  /\ PFunc 0 <> _UNSET
  /\ Conditions._resolve
       (Conditions.default (Conditions.when Conditions.__init__ false (PStr "a"))
                           (PBool false)) demo_state
     = (Returns (PBool false), demo_state)
  /\ Conditions._resolve
       (Conditions.default (Conditions.when Conditions.__init__ false (PStr "a"))
                           (PFunc 0)) demo_state
     = (Returns (PStr "lazy"), mkState 1 [0])
  /\ cond [(false, PStr "a")] (kwarg_default (Some (PFunc 0))) demo_state
     = (Returns (PStr "lazy"), mkState 1 [0])
  /\ cond [(false, PStr "a")] (kwarg_default None) demo_state
     = (Returns PNone, demo_state).
Proof.
  assert (Hno : no_match [(false, PStr "a")]) by (repeat constructor).
  assert (Hd : PBool false <> _UNSET) by discriminate.
  assert (Hf : PFunc 0 <> _UNSET) by discriminate.
  destruct (no_match_falls_back_to_default
              [(false, PStr "a")] (PBool false)
              (Conditions.when Conditions.__init__ false (PStr "a"))
              demo_state Hno eq_refl Hd) as (H1 & _ & _ & _ & _ & _ & _ & H8 & _).
  destruct (no_match_falls_back_to_default
              [(false, PStr "a")] (PFunc 0)
              (Conditions.when Conditions.__init__ false (PStr "a"))
              demo_state Hno eq_refl Hf) as (G1 & G2 & _).
  split; [exact Hno |].
  split; [exact Hd |].
  split; [exact Hf |].
  split; [exact H1 |].
  split; [exact G1 |].
  split; [exact G2 | exact H8].
Defined.

Lemma sentinel_stays_inside_witness :
  (forall f w, fst (demo_call f w) <> Returns _UNSET)
  /\ Forall legal_call [When false PNone; Default (PBool false)]
  /\ fst (cond [(true, PFunc 0)] _UNSET demo_state) <> Returns _UNSET
  /\ Conditions._default
       (chain ([Default (PStr "x")] ++ Default (PStr "y") :: [When true (PStr "a")])
              Conditions.__init__) = PStr "y"
  /\ is_UNSET
       (Conditions._default
          (chain [When false PNone; Default (PBool false)]
                 (Conditions.default Conditions.__init__ PNone))) = false.
Proof.
  assert (Hcalls : forall f w, fst (demo_call f w) <> Returns _UNSET).
  { intros [| [| f]] w; simpl; discriminate. }
  assert (Hlater : Forall legal_call [When false PNone; Default (PBool false)]).
  { repeat constructor; simpl; discriminate. }
  assert (Hcases : Forall (fun b : bool * pyobj => snd b <> _UNSET) [(true, PFunc 0)]).
  { repeat constructor; simpl; discriminate. }
  assert (Hafter : Forall is_when [When true (PStr "a")]).
  { repeat constructor. }
  assert (Hv : PNone <> _UNSET) by discriminate.
  destruct (sentinel_stays_inside
              [(true, PFunc 0)] _UNSET PNone (PStr "x") (PStr "y") Conditions.__init__
              [Default (PStr "x")] [When true (PStr "a")]
              [When false PNone; Default (PBool false)] demo_state
              Hcases Hcalls Hafter Hv Hlater) as (_ & H2 & _ & H4 & H5 & _).
  split; [exact Hcalls |].
  split; [exact Hlater |].
  split; [exact H2 |].
  split; [exact H4 | exact H5].
Defined.



Lemma callable_values_are_invoked_witness :
  selects [(false, PStr "a")] (PFunc 0) (Some (PFunc 0))
  /\ (exists f, PFunc 0 = PFunc f
        /\ Conditions._resolve (Conditions.mk [(false, PStr "a")] (PFunc 0)) demo_state
           = invoke f demo_state
        /\ cond [(false, PStr "a")] (PFunc 0) demo_state = invoke f demo_state
        /\ invoke f demo_state
           = (fst (call_fn f (world demo_state)),
              mkState (snd (call_fn f (world demo_state))) (calls demo_state ++ [f]))).
Proof.
  assert (Hsel : selects [(false, PStr "a")] (PFunc 0) (Some (PFunc 0))).
  { apply sel_default; [repeat constructor | discriminate]. }
  split; [exact Hsel |].
  exact (proj1 (callable_values_are_invoked _ _ _ demo_state Hsel) eq_refl).
Defined.

Lemma cond_no_default_same_as_None_witness :
  no_match [(false, PStr "a"); (false, PFunc 1)]
  /\ cond [(false, PStr "a"); (false, PFunc 1)] (kwarg_default None) demo_state
     = cond [(false, PStr "a"); (false, PFunc 1)] (kwarg_default (Some PNone)) demo_state
  /\ cond [(false, PStr "a"); (false, PFunc 1)] (kwarg_default None) demo_state
     = (Returns PNone, demo_state).
Proof.
  assert (Hno : no_match [(false, PStr "a"); (false, PFunc 1)]) by (repeat constructor).
  split; [exact Hno |].
  exact (cond_no_default_same_as_None _ demo_state Hno).
Defined.

(** *** Instances of the further properties *)

Lemma matched_instance_ignores_later_calls_witness :
  has_match (Conditions._cases (Conditions.when Conditions.__init__ true (PStr "a"))) = true
  /\ Conditions._resolve
       (chain [When true (PFunc 1); Default (PFunc 1)]
              (Conditions.when Conditions.__init__ true (PStr "a"))) demo_state
     = (Returns (PStr "a"), demo_state)
  /\ cond ([(true, PStr "a")] ++ [(true, PFunc 1)]) (PFunc 1) demo_state
     = cond [(true, PStr "a")] PNone demo_state.
Proof.
  assert (Hm : has_match
                 (Conditions._cases (Conditions.when Conditions.__init__ true (PStr "a")))
               = true) by reflexivity.
  destruct (matched_instance_ignores_later_calls
              (Conditions.when Conditions.__init__ true (PStr "a"))
              [When true (PFunc 1); Default (PFunc 1)]
              [(true, PFunc 1)] (PFunc 1) PNone demo_state Hm) as (H1 & _ & H3).
  split; [exact Hm |].
  split; [exact H1 | exact H3].
Defined.

Lemma deferral_is_one_level_witness :
  selects [(true, PFunc 0)] (PStr "d") (Some (PFunc 0))
  /\ @call_fn lazy_rt 0 (world lazy_state) = (Returns (PFunc 1), 1)
  /\ @Conditions._resolve lazy_rt (Conditions.mk [(true, PFunc 0)] (PStr "d")) lazy_state
     = (Returns (PFunc 1), @mkState lazy_rt 1 [0])
  /\ @Conditions.__html__ lazy_rt (Conditions.mk [(true, PFunc 0)] (PStr "d")) lazy_state
     = (Returns (mkMarkup "&lt;function &lt;lambda&gt; at 0x1&gt;"), @mkState lazy_rt 1 [0]).
Proof.
  assert (Hsel : selects [(true, PFunc 0)] (PStr "d") (Some (PFunc 0))).
  { apply (sel_branch _ _ [] (PFunc 0) []); [reflexivity | constructor]. }
  destruct (@deferral_is_one_level lazy_rt _ _ 0 1 1 lazy_state Hsel eq_refl)
    as (H1 & _ & H3).
  split; [exact Hsel |].
  split; [reflexivity |].
  split; [exact H1 | exact H3].
Defined.

Lemma deferred_renderable_is_rendered_witness :
  selects [(false, PStr "x")] (PFunc 1) (Some (PFunc 1))
  /\ @call_fn lazy_rt 1 (world lazy_state) = (Returns (PHtml 2), 1)
  /\ @html_fn lazy_rt 2 1 = (Returns "<span>ADMIN</span>", 2)
  /\ @Conditions.__html__ lazy_rt (Conditions.mk [(false, PStr "x")] (PFunc 1)) lazy_state
     = (Returns (mkMarkup "<span>ADMIN</span>"), @mkState lazy_rt 2 [1]).
Proof.
  assert (Hsel : selects [(false, PStr "x")] (PFunc 1) (Some (PFunc 1))).
  { apply sel_default; [repeat constructor | discriminate]. }
  split; [exact Hsel |].
  split; [reflexivity |].
  split; [reflexivity |].
  exact (@deferred_renderable_is_rendered lazy_rt _ _ 1 2 1 2 "<span>ADMIN</span>"
           lazy_state Hsel eq_refl eq_refl).
Defined.

Lemma hook_output_is_escaped_witness :
  Conditions._resolve (Conditions.when Conditions.__init__ true (PStr "<b>")) demo_state
  = (Returns (PStr "<b>"), demo_state)
  /\ HasHTMLDunder (PStr "<b>") = false
  /\ Conditions.__html__ (Conditions.when Conditions.__init__ true (PStr "<b>")) demo_state
     = (Returns (mkMarkup "&lt;b&gt;"), demo_state)
  /\ forall c, In c (list_ascii_of_string "&lt;b&gt;") -> ~ raw_meta c.
Proof.
  split; [reflexivity |].
  split; [reflexivity |].
  split; [reflexivity |].
  exact (proj1 (hook_output_is_escaped
                  (Conditions.when Conditions.__init__ true (PStr "<b>"))
                  (PStr "<b>") demo_state demo_state eq_refl eq_refl)
               (mkMarkup "&lt;b&gt;") demo_state eq_refl).
Defined.
